(** * filter-intel-xml.py: a shallow embedding and its properties

    The script reads an XML document of processor intrinsics, keeps the
    entries of one technology (or all of them) and prints, for each entry,
    a signature line followed by the machine instructions related to it.

    The embedding follows the script statement by statement.  Python
    strings are [string]s, one character of the [string] for one character
    of the Python string; the [attrib] dictionary of an ElementTree element
    is a [gmap string string]; the standard output is the string written so
    far; exceptions ([KeyError], the errors of [xml.parse], [SystemExit])
    are the [Raised] results of a small state-and-exception monad.  The
    built-ins [str.lower()] and [xml.parse] are not code of the script:
    they are parameters of the development, [lower] and [parse]. *)

From Stdlib Require Import Ascii.
From stdpp Require Import gmap strings list.

Abbreviation strlen := Stdlib.Strings.String.length.
Abbreviation substring := Stdlib.Strings.String.substring.
Abbreviation streqb := Stdlib.Strings.String.eqb.

(** ** Strings *)

Definition ESC : ascii := "027"%char.
Definition backspace : string := String "008"%char "".
Definition newline : string := String "010"%char "".

(** [s[:-2]]: everything but the last two characters; a string shorter than
    two characters gives the empty string. *)
Definition slice_to_minus2 (s : string) : string :=
  substring 0 (strlen s - 2) s.

(** The ASCII case map: [A] to [Z] become [a] to [z], every other
    character stays as it is.  It is what [str.lower()] does on a string of
    ASCII characters, and it is used for such strings only. *)
Definition ascii_lower (c : ascii) : ascii :=
  let n := nat_of_ascii c in
  if (65 <=? n) && (n <=? 90) then ascii_of_nat (n + 32) else c.

Fixpoint ascii_lowercase (s : string) : string :=
  match s with
  | EmptyString => EmptyString
  | String c s' => String (ascii_lower c) (ascii_lowercase s')
  end.

(** [s.isascii()]: every character is below 128. *)
Fixpoint is_ascii (s : string) : bool :=
  match s with
  | EmptyString => true
  | String c s' => (nat_of_ascii c <? 128) && is_ascii s'
  end.

(** ** ElementTree elements *)

#[warning="-register-all"] Inductive Element : Type :=
  mkElement (tag : string) (attrib : gmap string string) (children : list Element).

Definition tag (e : Element) : string :=
  match e with mkElement t _ _ => t end.
Definition attrib (e : Element) : gmap string string :=
  match e with mkElement _ a _ => a end.
Definition children (e : Element) : list Element :=
  match e with mkElement _ _ c => c end.

(** [e.findall(t)] for a plain tag name [t]: the direct children of [e]
    whose tag is [t], in document order. *)
Definition findall (e : Element) (t : string) : list Element :=
  filter (λ c, tag c = t) (children e).

(** ** Exceptions and the state of the process *)

Inductive exn : Type :=
  | KeyError (key : string)
  | DocumentError
  | SystemExit (code : nat).

Inductive result (A : Type) : Type :=
  | Ok (a : A)
  | Raised (e : exn).
Arguments Ok {A} a.
Arguments Raised {A} e.

Global Instance result_ret : MRet result := λ A a, Ok a.
Global Instance result_bind : MBind result := λ A B f m,
  match m with
  | Ok a => f a
  | Raised e => Raised e
  end.

(** What the process has done so far: the text written to the standard
    output and the paths handed to [xml.parse]. *)
Record world : Type := World { stdout : string; opened : list string }.

Definition M (A : Type) : Type := world → world * result A.

Global Instance M_ret : MRet M := λ A a w, (w, Ok a).
Global Instance M_bind : MBind M := λ A B f m w,
  match m w with
  | (w', Ok a) => f a w'
  | (w', Raised e) => (w', Raised e)
  end.

Definition lift {A} (r : result A) : M A := λ w, (w, r).

Definition write (s : string) (w : world) : world :=
  World (stdout w +:+ s) (opened w).

(** [print(s, end=e)] *)
Definition print (s e : string) : M unit := λ w, (write (s +:+ e) w, Ok tt).

(** [exit(code)] *)
Definition exit {A} (code : nat) : M A := λ w, (w, Raised (SystemExit code)).

(** [d[k]] and [d.get(k, default)] *)
Definition getitem (d : gmap string string) (k : string) : result string :=
  match d !! k with
  | Some v => Ok v
  | None => Raised (KeyError k)
  end.

Definition get (d : gmap string string) (k default : string) : string :=
  match d !! k with
  | Some v => v
  | None => default
  end.

(** [for x in l: body(x)] *)
Fixpoint for_ {A} (l : list A) (body : A → M unit) : M unit :=
  match l with
  | [] => mret tt
  | x :: l' => body x ;; for_ l' body
  end.

(** A [for] loop that updates one local variable. *)
Fixpoint for_acc {A S} (l : list A) (acc : S) (body : S → A → result S) : result S :=
  match l with
  | [] => Ok acc
  | x :: l' => acc' ← body acc x; for_acc l' acc' body
  end.

(** ** The script *)

Section Lowercase.

(** [str.lower()], the case map of Python strings.  It is a built-in, defined
    by the tables of the Unicode standard and not by the script, so the
    script is embedded over it: every definition and theorem below holds for
    whatever function [lower] is. *)
Variable lower : string → string.

Section Script.

(** The two switches at the top of the script. *)
Variables SKIPZERO COLORS : bool.

Definition CBLUE : string := if COLORS then String ESC "[94m" else "".
Definition CGREEN : string := if COLORS then String ESC "[92m" else "".
Definition CEND : string := if COLORS then String ESC "[0m" else "".
Definition CBEIGE : string := if COLORS then String ESC "[36m" else "".

(** [xml.parse(filename).getroot()]: the file system and the parser are
    not part of the script; [parse] gives the root element of the document
    at a path, or [None] when the file is missing or not well-formed. *)
Variable parse : string → option Element.

Definition xml_parse (filename : string) : M Element := λ w,
  let w' := World (stdout w) (opened w ++ [filename]) in
  match parse filename with
  | Some root => (w', Ok root)
  | None => (w', Raised DocumentError)
  end.

(** The text one parameter adds to the signature. *)
Definition parameter_text (arg : Element) : result string :=
  typ ← getitem (attrib arg) "type";
  let name := get (attrib arg) "varname" backspace in
  mret (CBEIGE +:+ typ +:+ CBLUE +:+ " " +:+ name +:+ ", ").

(** The value of [intrinsic_name] when the signature is complete. *)
Definition intrinsic_name (child : Element) : result string :=
  intrinsic_name ← getitem (attrib child) "name";
  let intrinsic_name := intrinsic_name +:+ "(" in
  intrinsic_name ← for_acc (findall child "parameter") intrinsic_name
    (λ intrinsic_name arg,
       text ← parameter_text arg; mret (intrinsic_name +:+ text));
  mret (slice_to_minus2 intrinsic_name +:+ ")").

(** The text printed for one instruction. *)
Definition instruction_text (instr : Element) : result string :=
  let attribs := attrib instr in
  name ← getitem attribs "name";
  let name := lower name in
  let form := get attribs "form" backspace in
  mret (CGREEN +:+ name +:+ CEND +:+ " " +:+ form).

Definition print_instruction (instr : Element) : M unit :=
  text ← lift (instruction_text instr);
  print text newline.

(** The test of the first [if] of the loop: does the entry fall outside
    the requested technology?  The attribute is read only when a tag was
    given. *)
Definition filtered_out (tech : string) (child : Element) : result bool :=
  if negb (strlen tech =? 0) then
    t ← getitem (attrib child) "tech"; mret (negb (streqb t tech))
  else mret false.

(** The body of the main loop; [continue] ends it early. *)
Definition loop_body (tech : string) (child : Element) : M unit :=
  skip ← lift (filtered_out tech child);
  if (skip : bool) then mret tt
  else
    let instructions := findall child "instruction" in
    let instr_no := length instructions in
    intrinsic_name ← lift (intrinsic_name child);
    if (instr_no =? 0) && SKIPZERO then mret tt
    else
      (if instr_no =? 1
       then print (CBLUE +:+ intrinsic_name +:+ CEND) ": "
       else print (CBLUE +:+ intrinsic_name +:+ CEND) newline);;
      for_ instructions print_instruction.

Definition main_loop (tech : string) (root : Element) : M unit :=
  for_ (children root) (loop_body tech).

(** The value of [tech] after the argument handling. *)
Definition tech_arg (argv : list string) : string :=
  if length argv =? 3 then nth 2 argv "" else "".

Definition main (argv : list string) : M unit :=
  filename ← (if 2 <=? length argv then mret (nth 1 argv "")
              else print "Not enough arguments" newline;; exit 1);
  let tech := tech_arg argv in
  tree ← xml_parse filename;
  main_loop tech tree.

End Script.

(** The process starts with nothing written and nothing opened. *)
Definition initial : world := World "" [].

(** The exit status of the process: an uncaught exception ends a Python
    process with status 1, [SystemExit] with its code. *)
Definition exit_status (r : result unit) : nat :=
  match r with
  | Ok _ => 0
  | Raised (SystemExit code) => code
  | Raised _ => 1
  end.

(** ** Notions used in the statements *)

(** A computation is _framed_ when all it does to the process is to append
    text to the standard output, the same text whatever was written before:
    its run from any state is its run from [initial], shifted. *)
Definition framed {A} (m : M A) : Prop :=
  ∀ w, m w = (write (stdout (m initial).1) w, (m initial).2).

(** Text made of pieces, in their order. *)
Fixpoint join (l : list string) : string :=
  match l with
  | [] => ""
  | s :: l' => s +:+ join l'
  end.

(** The text a computation writes, and the result it ends with. *)
Definition output {A} (m : M A) : string := stdout (m initial).1.
Definition outcome {A} (m : M A) : result A := (m initial).2.

(** An entry is retained when no tag was given or its [tech] attribute is
    the tag. *)
Definition retained (tech : string) (child : Element) : Prop :=
  tech = "" ∨ attrib child !! "tech" = Some tech.

(** The skip rule leaves an entry alone when it is switched off or the entry
    has an instruction. *)
Definition not_skipped (SKIPZERO : bool) (child : Element) : Prop :=
  SKIPZERO = false ∨ findall child "instruction" ≠ [].

(** An entry appears in the output when handling it writes something. *)
Definition appears (SKIPZERO COLORS : bool) (tech : string) (child : Element) : Prop :=
  output (loop_body SKIPZERO COLORS tech child) ≠ "".

(** Does the element carry the attribute [k]? *)
Definition has (k : string) (e : Element) : bool :=
  match attrib e !! k with
  | Some _ => true
  | None => false
  end.

(** The attributes the script reads with [d[k]]: [tech] of an entry when a
    tag was given, [name] of an entry, [type] of a parameter, [name] of an
    instruction. *)
Definition required_attributes (tech : string) (child : Element) : bool :=
  ((strlen tech =? 0) || has "tech" child)
  && has "name" child
  && forallb (has "type") (findall child "parameter")
  && forallb (has "name") (findall child "instruction").

(** The first error met when [f] is applied to the elements of a list in
    order. *)
Fixpoint first_error {A} (f : A → result unit) (l : list A) : result unit :=
  match l with
  | [] => Ok tt
  | x :: l' => f x ;; first_error f l'
  end.

(** Reading the attribute [k] of every element of a list with [d[k]]. *)
Definition require (k : string) (l : list Element) : result unit :=
  first_error (λ x, getitem (attrib x) k ;; mret tt) l.

(** The attribute reads of the loop body, in the order in which the body
    makes them, without the printing. *)
Definition entry_outcome (tech : string) (child : Element) : result unit :=
  skip ← filtered_out tech child;
  if (skip : bool) then mret tt
  else
    getitem (attrib child) "name" ;;
    require "type" (findall child "parameter") ;;
    require "name" (findall child "instruction").

(** The attributes of an entry that a run with the tag [tech] reads with
    [d[k]]: [tech] when a tag is given and, for an entry of the requested
    technology, its [name], the [type] of its parameters and the [name] of
    its instructions. *)
Definition block_attributes (child : Element) : bool :=
  has "name" child
  && forallb (has "type") (findall child "parameter")
  && forallb (has "name") (findall child "instruction").

Definition needed_attributes (tech : string) (child : Element) : bool :=
  if strlen tech =? 0 then block_attributes child
  else
    match attrib child !! "tech" with
    | None => false
    | Some t => if streqb t tech then block_attributes child else true
    end.

(** The text of a parameter in a signature, without the separator. *)
Definition parameter_display (COLORS : bool) (typ : string) (arg : Element) : string :=
  CBEIGE COLORS +:+ typ +:+ CBLUE COLORS +:+ " " +:+ get (attrib arg) "varname" backspace.

(** The children the loop body looks at. *)
Definition relevant (c : Element) : Prop :=
  tag c = "parameter" ∨ tag c = "instruction".

Global Instance relevant_dec (c : Element) : Decision (relevant c).
Proof. unfold relevant. apply _. Defined.

(** ** Example documents *)

Definition attrs (l : list (string * string)) : gmap string string :=
  list_to_map l.

Definition add_epi32 : Element :=
  mkElement "intrinsic" (attrs [("name", "_mm_add_epi32"); ("tech", "SSE2")])
    [ mkElement "parameter" (attrs [("type", "__m128i"); ("varname", "a")]) [];
      mkElement "parameter" (attrs [("type", "__m128i"); ("varname", "b")]) [];
      mkElement "instruction" (attrs [("name", "PADDD"); ("form", "xmm, xmm")]) [] ].

Definition doc1 : Element := mkElement "intrinsics_list" ∅ [add_epi32].

Definition setzero_si128 : Element :=
  mkElement "intrinsic" (attrs [("name", "_mm_setzero_si128"); ("tech", "SSE2")])
    [ mkElement "instruction" (attrs [("name", "PXOR"); ("form", "xmm, xmm")]) [] ].

Definition unnamed_parameter : Element :=
  mkElement "parameter" (attrs [("type", "__m128i")]) [].
Definition formless_instruction : Element :=
  mkElement "instruction" (attrs [("name", "VZEROALL")]) [].

Definition castps_si128 : Element :=
  mkElement "intrinsic" (attrs [("name", "_mm_castps_si128"); ("tech", "SSE2")])
    [ mkElement "parameter" (attrs [("type", "__m128"); ("varname", "a")]) [] ].

Definition i32gather : Element :=
  mkElement "intrinsic" (attrs [("name", "_mm_i32gather"); ("tech", "AVX2")])
    [ mkElement "parameter" (attrs [("type", "int"); ("varname", "i")]) [];
      mkElement "instruction" (attrs [("name", "VMOVD"); ("form", "xmm, r32")]) [];
      mkElement "instruction" (attrs [("name", "VPGATHERDD")]) [] ].

Definition untagged_doc : Element :=
  mkElement "intrinsics_list" ∅
    [ mkElement "intrinsic" (attrs [("name", "_mm_add_epi32")])
        [ mkElement "instruction" (attrs [("name", "PADDD"); ("form", "xmm, xmm")]) [] ] ].

Definition untyped_doc : Element :=
  mkElement "intrinsics_list" ∅
    [ add_epi32;
      mkElement "intrinsic" (attrs [("name", "_mm_sub_epi32"); ("tech", "SSE2")])
        [ mkElement "parameter" (attrs [("varname", "a")]) [];
          mkElement "instruction" (attrs [("name", "PSUBD"); ("form", "xmm, xmm")]) [] ] ].

Definition mixed_doc : Element :=
  mkElement "intrinsics_list" ∅ [add_epi32; castps_si128; i32gather].

Definition described_entry : Element :=
  mkElement "intrinsic" (attrs [("name", "_mm_add_epi32"); ("tech", "SSE2")])
    [ mkElement "type" ∅ [];
      mkElement "parameter" (attrs [("type", "__m128i"); ("varname", "a")]) [];
      mkElement "description" ∅ [];
      mkElement "parameter" (attrs [("type", "__m128i"); ("varname", "b")]) [];
      mkElement "instruction" (attrs [("name", "PADDD"); ("form", "xmm, xmm")]) [];
      mkElement "header" ∅ [] ].

Definition nameless_instruction_entry : Element :=
  mkElement "intrinsic" (attrs [("name", "_mm_i32gather"); ("tech", "AVX2")])
    [ mkElement "parameter" (attrs [("type", "int"); ("varname", "i")]) [];
      mkElement "instruction" (attrs [("name", "VMOVD"); ("form", "xmm, r32")]) [];
      mkElement "instruction" (attrs [("form", "xmm, vm32x, xmm")]) [];
      mkElement "instruction" (attrs [("name", "VPGATHERDD")]) [] ].

(** ** Strings: append and slicing *)

Lemma app_cons_s (x : ascii) (a b : string) : String x a +:+ b = String x (a +:+ b).
Proof. reflexivity. Qed.

Lemma app_empty_l (a : string) : "" +:+ a = a.
Proof. reflexivity. Qed.

Lemma app_assoc_s (a b c : string) : (a +:+ b) +:+ c = a +:+ (b +:+ c).
Proof.
  induction a as [|x a IH]; [done|].
  by rewrite !app_cons_s, IH.
Qed.

Lemma app_empty_r (a : string) : a +:+ "" = a.
Proof.
  induction a as [|x a IH]; [done|].
  by rewrite app_cons_s, IH.
Qed.

Lemma strlen_app (a b : string) : strlen (a +:+ b) = strlen a + strlen b.
Proof.
  induction a as [|x a IH]; [done|].
  rewrite app_cons_s. cbn [strlen]. by rewrite IH.
Qed.

Lemma substring_prefix (a b : string) : substring 0 (strlen a) (a +:+ b) = a.
Proof.
  induction a as [|x a IH].
  - by destruct b.
  - rewrite app_cons_s. cbn [strlen substring]. by rewrite IH.
Qed.

(** Slicing removes a two-character suffix. *)
Lemma slice_to_minus2_suffix (s : string) (c1 c2 : ascii) :
  slice_to_minus2 (s +:+ String c1 (String c2 "")) = s.
Proof.
  unfold slice_to_minus2. rewrite strlen_app. cbn [strlen].
  replace (strlen s + 2 - 2) with (strlen s) by lia.
  apply substring_prefix.
Qed.

(** With nothing appended after the parenthesis, slicing removes the
    parenthesis and the character before it. *)
Lemma slice_to_minus2_paren (s : string) (c : ascii) :
  slice_to_minus2 ((s +:+ String c "") +:+ "(") = s.
Proof.
  rewrite app_assoc_s. apply slice_to_minus2_suffix.
Qed.

(** ** The monad: running a computation step by step *)

Lemma bind_run {A B} (m : M A) (f : A → M B) (w : world) :
  (m ≫= f) w =
  match m w with
  | (w', Ok a) => f a w'
  | (w', Raised e) => (w', Raised e)
  end.
Proof. reflexivity. Qed.

Lemma bind_lift_ok {A B} (a : A) (f : A → M B) (w : world) :
  (lift (Ok a) ≫= f) w = f a w.
Proof. reflexivity. Qed.

Lemma bind_lift_raised {A B} (e : exn) (f : A → M B) (w : world) :
  (lift (Raised e) ≫= f) w = (w, Raised e).
Proof. reflexivity. Qed.

Lemma write_write (a b : string) (w : world) :
  write b (write a w) = write (a +:+ b) w.
Proof. unfold write. cbn. by rewrite app_assoc_s. Qed.

Lemma write_empty (w : world) : write "" w = w.
Proof. destruct w. unfold write. cbn. by rewrite app_empty_r. Qed.

Lemma framed_ret {A} (a : A) : framed (mret a : M A).
Proof. intros w. cbn. by rewrite write_empty. Qed.

Lemma framed_lift {A} (r : result A) : framed (lift r).
Proof. intros w. cbn. by rewrite write_empty. Qed.

Lemma framed_print (s e : string) : framed (print s e).
Proof. intros w. reflexivity. Qed.

Lemma framed_bind {A B} (m : M A) (f : A → M B) :
  framed m → (∀ a, framed (f a)) → framed (m ≫= f).
Proof.
  intros Hm Hf w. rewrite !bind_run, (Hm w).
  destruct (m initial) as [w1 [a|e]] eqn:E; cbn [fst snd]; [|done].
  by rewrite (Hf a (write _ w)), (Hf a w1), write_write.
Qed.

Lemma framed_for {A} (l : list A) (body : A → M unit) :
  (∀ x, framed (body x)) → framed (for_ l body).
Proof.
  intros Hb. induction l as [|x l IH]; cbn [for_].
  - apply framed_ret.
  - apply framed_bind; [apply Hb | intros _; apply IH].
Qed.

Lemma join_app (l1 l2 : list string) : join (l1 ++ l2) = join l1 +:+ join l2.
Proof.
  induction l1 as [|s l1 IH]; [done|].
  cbn [join app]. by rewrite IH, app_assoc_s.
Qed.

Lemma framed_run {A} (m : M A) (w : world) :
  framed m → m w = (write (output m) w, outcome m).
Proof. intros H. apply H. Qed.

(** A loop that runs to its end has written the texts of its rounds, one
    after the other. *)
Lemma for_output {A} (l : list A) (body : A → M unit) :
  (∀ x, framed (body x)) →
  outcome (for_ l body) = Ok tt →
  output (for_ l body) = join (map (λ x, output (body x)) l)
  ∧ Forall (λ x, outcome (body x) = Ok tt) l.
Proof.
  intros Hb. induction l as [|x l IH]; [done|].
  unfold outcome, output. cbn [for_]. rewrite bind_run.
  destruct (body x initial) as [w1 [[]|e]] eqn:E; [|done].
  rewrite (framed_run _ w1 (framed_for l body Hb)). cbn [fst snd].
  intros Hok. destruct (IH Hok) as [Hout Hall]. split.
  - cbn [map join]. by rewrite Hout, E.
  - constructor; [|done]. unfold outcome. by rewrite E.
Qed.

(** ** The pieces of the loop body *)

Lemma strlen_zero (s : string) : (strlen s =? 0) = true ↔ s = "".
Proof. destruct s; cbn; split; intros H; done. Qed.

Lemma filtered_out_false (tech : string) (child : Element) :
  filtered_out tech child = Ok false ↔ retained tech child.
Proof.
  unfold filtered_out, retained.
  destruct (strlen tech =? 0) eqn:E; cbn [negb].
  - apply strlen_zero in E. split; [by left | done].
  - assert (tech ≠ "") as Hne.
    { intros ->. by cbn in E. }
    unfold getitem. destruct (attrib child !! "tech") as [t|]; cbn.
    + destruct (String.eqb_spec t tech) as [->|Hd]; cbn.
      * split; [by right | done].
      * split; [done |]. intros [?|[=]]; done.
    + split; [done |]. intros [?|?]; done.
Qed.

Section Pieces.

Variables SKIPZERO COLORS : bool.

Lemma framed_print_instruction (instr : Element) :
  framed (print_instruction COLORS instr).
Proof.
  apply framed_bind; [apply framed_lift | intros ?; apply framed_print].
Qed.

Lemma framed_loop_body (tech : string) (child : Element) :
  framed (loop_body SKIPZERO COLORS tech child).
Proof.
  unfold loop_body.
  apply framed_bind; [apply framed_lift | intros [|]; [apply framed_ret|]].
  apply framed_bind; [apply framed_lift | intros sig].
  destruct (_ && _); [apply framed_ret|].
  apply framed_bind; [|intros _; apply framed_for, framed_print_instruction].
  destruct (_ =? 1); apply framed_print.
Qed.

(** The loop body of a retained entry whose signature is [sig]. *)
Lemma loop_body_retained (tech : string) (child : Element) (sig : string) (w : world) :
  retained tech child →
  intrinsic_name COLORS child = Ok sig →
  loop_body SKIPZERO COLORS tech child w =
  let instructions := findall child "instruction" in
  if (length instructions =? 0) && SKIPZERO then (w, Ok tt)
  else
    for_ instructions (print_instruction COLORS)
      (write (CBLUE COLORS +:+ sig +:+ CEND COLORS +:+
              (if length instructions =? 1 then ": " else newline)) w).
Proof.
  intros Hr Hs. apply filtered_out_false in Hr.
  unfold loop_body. rewrite Hr, bind_lift_ok, Hs, bind_lift_ok. cbn zeta.
  destruct (_ && _); [done|].
  rewrite bind_run.
  destruct (length _ =? 1); unfold print; by rewrite !app_assoc_s.
Qed.

(** An entry that is filtered out, or whose signature cannot be built,
    writes nothing. *)
Lemma loop_body_filtered_out (tech : string) (child : Element) (w : world) :
  filtered_out tech child ≠ Ok false →
  (loop_body SKIPZERO COLORS tech child w).1 = w.
Proof.
  intros H. unfold loop_body.
  destruct (filtered_out tech child) as [[|]|e]; done.
Qed.

Lemma loop_body_no_signature (tech : string) (child : Element) (e : exn) (w : world) :
  intrinsic_name COLORS child = Raised e →
  (loop_body SKIPZERO COLORS tech child w).1 = w.
Proof.
  intros H. unfold loop_body.
  destruct (filtered_out tech child) as [[|]|e']; [done| |done].
  by rewrite bind_lift_ok, H.
Qed.

(** Printing instructions whose texts are [lines]. *)
Lemma for_print_instruction (instrs : list Element) (lines : list string) (w : world) :
  Forall2 (λ i l, instruction_text COLORS i = Ok l) instrs lines →
  for_ instrs (print_instruction COLORS) w =
  (write (join (map (λ l, l +:+ newline) lines)) w, Ok tt).
Proof.
  intros H. revert w. induction H as [|i l instrs lines Hi _ IH]; intros w.
  - cbn. by rewrite write_empty.
  - cbn [for_ map join]. rewrite bind_run. unfold print_instruction at 1.
    rewrite Hi, bind_lift_ok. unfold print. by rewrite IH, write_write.
Qed.

(** The signature loop over parameters whose texts are [texts]. *)
Lemma for_acc_parameters (args : list Element) (texts : list string) (acc : string) :
  Forall2 (λ a t, parameter_text COLORS a = Ok t) args texts →
  for_acc args acc
    (λ acc arg, text ← parameter_text COLORS arg; mret (acc +:+ text))
  = Ok (acc +:+ join texts).
Proof.
  intros H. revert acc. induction H as [|a t args texts Ha _ IH]; intros acc.
  - cbn. by rewrite app_empty_r.
  - cbn [for_acc join]. rewrite Ha. cbn. by rewrite IH, app_assoc_s.
Qed.

Lemma for_acc_parameters_inv (args : list Element) (acc s : string) :
  for_acc args acc
    (λ acc arg, text ← parameter_text COLORS arg; mret (acc +:+ text))
  = Ok s →
  ∃ texts, Forall2 (λ a t, parameter_text COLORS a = Ok t) args texts
           ∧ s = acc +:+ join texts.
Proof.
  revert acc. induction args as [|a args IH]; intros acc H.
  - exists []. split; [constructor|]. cbn in H. injection H as <-.
    by rewrite app_empty_r.
  - cbn [for_acc] in H.
    destruct (parameter_text COLORS a) as [t|e] eqn:Ha; [|done].
    cbn in H. destruct (IH _ H) as (texts & Hall & ->).
    exists (t :: texts). split; [by constructor|].
    cbn [join]. by rewrite app_assoc_s.
Qed.

End Pieces.

(** ** Signatures *)

(** The signature of an entry: its name, an opening parenthesis, the texts
    of its parameters, the last two characters cut off, and a closing
    parenthesis. *)
Lemma intrinsic_name_texts (COLORS : bool) (child : Element) (name : string)
    (texts : list string) :
  attrib child !! "name" = Some name →
  Forall2 (λ a t, parameter_text COLORS a = Ok t) (findall child "parameter") texts →
  intrinsic_name COLORS child
  = Ok (slice_to_minus2 (name +:+ "(" +:+ join texts) +:+ ")").
Proof.
  intros Hn Ht. unfold intrinsic_name, getitem. rewrite Hn. cbn.
  rewrite (for_acc_parameters COLORS _ texts _ Ht). cbn.
  by rewrite app_assoc_s.
Qed.

(** Without parameters the slice removes the parenthesis and the last
    character of the name. *)
Lemma intrinsic_name_no_parameters (COLORS : bool) (child : Element)
    (name : string) (c : ascii) :
  attrib child !! "name" = Some (name +:+ String c "") →
  findall child "parameter" = [] →
  intrinsic_name COLORS child = Ok (name +:+ ")").
Proof.
  intros Hn Hp.
  rewrite (intrinsic_name_texts COLORS child _ [] Hn) by (rewrite Hp; constructor).
  cbn [join]. by rewrite app_empty_r, slice_to_minus2_paren.
Qed.

(** ** Optional attributes *)

Lemma get_default (d : gmap string string) (k default_ : string) :
  get d k default_ = default default_ (d !! k).
Proof. unfold get. by destruct (d !! k). Qed.

(** C7: a parameter without [varname] and an instruction without [form] are
    rendered with the backspace character in place of the missing value, and
    neither attribute ever raises a [KeyError]. *)
Theorem missing_optional_attribute_renders_backspace
    (COLORS : bool) (arg instr : Element) (typ name : string) :
  (attrib arg !! "varname" = None → attrib arg !! "type" = Some typ →
   parameter_text COLORS arg
   = Ok (CBEIGE COLORS +:+ typ +:+ CBLUE COLORS +:+ " " +:+ backspace +:+ ", "))
  ∧ (attrib instr !! "form" = None → attrib instr !! "name" = Some name →
     instruction_text COLORS instr
     = Ok (CGREEN COLORS +:+ lower name +:+ CEND COLORS +:+ " " +:+ backspace))
  ∧ parameter_text COLORS arg ≠ Raised (KeyError "varname")
  ∧ instruction_text COLORS instr ≠ Raised (KeyError "form").
Proof.
  unfold parameter_text, instruction_text, getitem, get.
  repeat split.
  - by intros -> ->.
  - by intros -> ->.
  - by destruct (attrib arg !! "type").
  - by destruct (attrib instr !! "name").
Qed.

(** ** Instruction lines *)

Example ascii_lowercase_PADDD : ascii_lowercase "PADDD" = "paddd".
Proof. reflexivity. Qed.

Example ascii_lowercase_mixed : ascii_lowercase "vpAddD_2 [Z]" = "vpaddd_2 [z]".
Proof. reflexivity. Qed.

Section InstructionLine.

(** What is known of [str.lower()] without the tables of the Unicode
    standard: on a string of ASCII characters it is the ASCII case map. *)
Hypothesis lower_ascii : ∀ s, is_ascii s = true → lower s = ascii_lowercase s.

(** C8: the line of an instruction is its name converted by [str.lower()]
    (between the colour codes, which are empty when colours are off), a
    space, and the [form] value or the backspace character when there is no
    [form]; it is printed followed by a line break.  For a name of ASCII
    characters the converted name is the name with [A] to [Z] replaced by
    [a] to [z]. *)
Theorem instruction_line (COLORS : bool) (instr : Element) (name : string) (w : world) :
  attrib instr !! "name" = Some name →
  let form := default backspace (attrib instr !! "form") in
  instruction_text COLORS instr
  = Ok (CGREEN COLORS +:+ lower name +:+ CEND COLORS +:+ " " +:+ form)
  ∧ instruction_text false instr = Ok (lower name +:+ " " +:+ form)
  ∧ print_instruction COLORS instr w
    = (write (CGREEN COLORS +:+ lower name +:+ CEND COLORS +:+ " " +:+ form
              +:+ newline) w, Ok tt)
  ∧ (is_ascii name = true →
     instruction_text COLORS instr
     = Ok (CGREEN COLORS +:+ ascii_lowercase name +:+ CEND COLORS +:+ " " +:+ form)
     ∧ instruction_text false instr = Ok (ascii_lowercase name +:+ " " +:+ form)).
Proof.
  intros Hn form.
  assert (∀ C, instruction_text C instr
               = Ok (CGREEN C +:+ lower name +:+ CEND C +:+ " " +:+ form)) as Ht.
  { intros C. unfold instruction_text, getitem. rewrite Hn, get_default. done. }
  split; [apply Ht|]. split; [apply Ht|]. split.
  - unfold print_instruction. rewrite Ht, bind_lift_ok. unfold print.
    by rewrite !app_assoc_s.
  - intros Ha. rewrite <- (lower_ascii name Ha). split; apply Ht.
Qed.

End InstructionLine.

(** ** Command-line arguments *)

(** C9: without a path argument the script prints [Not enough arguments] to
    the standard output and exits with status 1; no document is opened. *)
Theorem missing_path_argument
    (SKIPZERO COLORS : bool) (parse : string → option Element) (argv : list string) :
  length argv < 2 →
  main SKIPZERO COLORS parse argv initial
  = (World ("Not enough arguments" +:+ newline) [], Raised (SystemExit 1))
  ∧ exit_status (main SKIPZERO COLORS parse argv initial).2 = 1
  ∧ opened (main SKIPZERO COLORS parse argv initial).1 = [].
Proof.
  intros H. unfold main.
  destruct (2 <=? length argv) eqn:E; [apply Nat.leb_le in E; lia|].
  done.
Qed.

(** C10: with more than two arguments after the script name the tag stays
    empty, every entry is retained, and the script behaves as if only the
    path had been given. *)
Theorem extra_arguments_ignore_tag
    (SKIPZERO COLORS : bool) (parse : string → option Element)
    (argv : list string) (w : world) :
  3 < length argv →
  tech_arg argv = ""
  ∧ (∀ child, retained (tech_arg argv) child)
  ∧ main SKIPZERO COLORS parse argv w = main SKIPZERO COLORS parse (take 2 argv) w.
Proof.
  intros H.
  assert (tech_arg argv = "") as Ht.
  { unfold tech_arg. destruct (length argv =? 3) eqn:E; [|done].
    apply Nat.eqb_eq in E. lia. }
  split; [done|]. split; [intros child; rewrite Ht; by left|].
  destruct argv as [|a0 [|a1 [|a2 [|a3 rest]]]]; cbn in H; try lia.
  done.
Qed.

(** ** The block of one entry *)

(** C4: with the skip rule on, an entry without instruction children
    writes nothing, whatever else happens to it; with the skip rule off, a
    retained entry without instruction children writes one line, its
    signature between the colour codes. *)
Theorem zero_instruction_entries
    (COLORS : bool) (tech : string) (child : Element) (sig : string) (w : world) :
  findall child "instruction" = [] →
  (loop_body true COLORS tech child w).1 = w
  ∧ (retained tech child →
     intrinsic_name COLORS child = Ok sig →
     loop_body false COLORS tech child w
     = (write (CBLUE COLORS +:+ sig +:+ CEND COLORS +:+ newline) w, Ok tt)).
Proof.
  intros Hz. split.
  - unfold loop_body. rewrite Hz.
    destruct (filtered_out tech child) as [[|]|e]; [done| |done].
    rewrite bind_lift_ok.
    by destruct (intrinsic_name COLORS child).
  - intros Hr Hs.
    rewrite (loop_body_retained false COLORS tech child sig w Hr Hs), Hz.
    done.
Qed.

(** C5: a retained entry with one instruction writes its signature, [": "],
    the instruction line and a line break; a retained entry with two or more
    instructions writes its signature and a line break, then every
    instruction line followed by a line break. *)
Theorem one_or_many_instructions
    (SKIPZERO COLORS : bool) (tech : string) (child : Element)
    (sig : string) (lines : list string) (w : world) :
  retained tech child →
  intrinsic_name COLORS child = Ok sig →
  Forall2 (λ i l, instruction_text COLORS i = Ok l)
    (findall child "instruction") lines →
  (∀ line, lines = [line] →
     loop_body SKIPZERO COLORS tech child w
     = (write (CBLUE COLORS +:+ sig +:+ CEND COLORS +:+ ": "
               +:+ line +:+ newline) w, Ok tt))
  ∧ (2 ≤ length (findall child "instruction") →
     loop_body SKIPZERO COLORS tech child w
     = (write (CBLUE COLORS +:+ sig +:+ CEND COLORS +:+ newline
               +:+ join (map (λ l, l +:+ newline) lines)) w, Ok tt)).
Proof.
  intros Hr Hs Hl.
  pose proof (Forall2_length _ _ _ Hl) as Hlen.
  rewrite (loop_body_retained SKIPZERO COLORS tech child sig w Hr Hs). cbn zeta.
  rewrite (for_print_instruction COLORS _ lines _ Hl), write_write.
  split.
  - intros line ->. rewrite Hlen. cbn [length Nat.eqb andb map join].
    by rewrite !app_assoc_s, app_empty_r.
  - intros H2. destruct (length (findall child "instruction")) as [|[|n]]; [lia..|].
    cbn [Nat.eqb andb]. by rewrite !app_assoc_s.
Qed.

(** ** Which entries appear *)

Lemma app_eq_empty (a b : string) : a +:+ b = "" → a = "" ∧ b = "".
Proof. destruct a; [done|]. by rewrite app_cons_s. Qed.

(** Handling an entry writes something exactly when the entry is retained,
    is not dropped by the skip rule, and has a signature. *)
Lemma appears_iff (SKIPZERO COLORS : bool) (tech : string) (child : Element) (sig : string) :
  intrinsic_name COLORS child = Ok sig →
  appears SKIPZERO COLORS tech child
  ↔ retained tech child ∧ not_skipped SKIPZERO child.
Proof.
  intros Hs. unfold appears, output, not_skipped. split.
  - intros Ha.
    assert (filtered_out tech child = Ok false) as Hf.
    { destruct (filtered_out tech child) as [[|]|e] eqn:Hf; [|done|];
        rewrite loop_body_filtered_out in Ha by congruence; done. }
    apply filtered_out_false in Hf. split; [done|].
    rewrite (loop_body_retained _ _ _ _ _ _ Hf Hs) in Ha. cbn zeta in Ha.
    destruct SKIPZERO; [|by left]. right. intros Hz.
    rewrite Hz in Ha. by cbn in Ha.
  - intros [Hr Hn].
    rewrite (loop_body_retained _ _ _ _ _ _ Hr Hs). cbn zeta.
    assert ((length (findall child "instruction") =? 0) && SKIPZERO = false) as ->.
    { destruct Hn as [->|Hn]; [apply andb_false_r|].
      destruct (findall child "instruction"); done. }
    rewrite (framed_run _ _ (framed_for _ _ (framed_print_instruction COLORS))).
    cbn [fst]. unfold write. cbn [stdout]. rewrite app_empty_l.
    intros Hw. apply app_eq_empty in Hw as [Hw _].
    rewrite <- !app_assoc_s in Hw. apply app_eq_empty in Hw as [_ Hw].
    by destruct (_ =? 1).
Qed.

(** C3, as the code has it: for an entry whose signature can be built, with
    a non-empty tag the entry appears exactly when its [tech] attribute is
    the tag and the skip rule does not drop it; with no tag it appears
    exactly when the skip rule does not drop it. *)
Theorem entry_appears_iff
    (SKIPZERO COLORS : bool) (tech : string) (child : Element) (sig : string) :
  intrinsic_name COLORS child = Ok sig →
  (tech ≠ "" →
   (appears SKIPZERO COLORS tech child
    ↔ attrib child !! "tech" = Some tech ∧ not_skipped SKIPZERO child))
  ∧ (tech = "" →
     (appears SKIPZERO COLORS tech child ↔ not_skipped SKIPZERO child)).
Proof.
  intros Hs. pose proof (appears_iff SKIPZERO COLORS tech child sig Hs) as H.
  unfold retained in H. split; intros Ht; rewrite H.
  - split; [intros [[?|?] ?]; done | intros [? ?]; split; [by right | done]].
  - split; [intros [_ ?]; done | intros ?; split; [by left | done]].
Qed.

(** ** Required attributes *)

Lemma has_getitem (k : string) (e : Element) :
  has k e = true → ∃ v, getitem (attrib e) k = Ok v.
Proof.
  unfold has, getitem. destruct (attrib e !! k) as [v|]; [|done]. by exists v.
Qed.

Lemma parameter_texts_exist (COLORS : bool) (args : list Element) :
  forallb (has "type") args = true →
  ∃ texts, Forall2 (λ a t, parameter_text COLORS a = Ok t) args texts.
Proof.
  induction args as [|a args IH]; cbn [forallb].
  - exists []. constructor.
  - intros [Ha Hr]%andb_true_iff. destruct (IH Hr) as [texts Ht].
    destruct (has_getitem _ _ Ha) as [v Hv].
    eexists (_ :: texts). constructor; [|done].
    unfold parameter_text. rewrite Hv. reflexivity.
Qed.

Lemma instruction_texts_exist (COLORS : bool) (instrs : list Element) :
  forallb (has "name") instrs = true →
  ∃ lines, Forall2 (λ i l, instruction_text COLORS i = Ok l) instrs lines.
Proof.
  induction instrs as [|i instrs IH]; cbn [forallb].
  - exists []. constructor.
  - intros [Hi Hr]%andb_true_iff. destruct (IH Hr) as [lines Hl].
    destruct (has_getitem _ _ Hi) as [v Hv].
    eexists (_ :: lines). constructor; [|done].
    unfold instruction_text. rewrite Hv. reflexivity.
Qed.

Lemma loop_body_ok (SKIPZERO COLORS : bool) (tech : string) (child : Element) (w : world) :
  required_attributes tech child = true →
  (loop_body SKIPZERO COLORS tech child w).2 = Ok tt.
Proof.
  unfold required_attributes.
  intros [[[Ht Hn]%andb_true_iff Hp]%andb_true_iff Hi]%andb_true_iff.
  destruct (has_getitem _ _ Hn) as [name Hname].
  destruct (parameter_texts_exist COLORS _ Hp) as [texts Htexts].
  destruct (instruction_texts_exist COLORS _ Hi) as [lines Hlines].
  assert (∃ b, filtered_out tech child = Ok b) as [[|] Hf].
  { unfold filtered_out. destruct (strlen tech =? 0); cbn [negb].
    - by exists false.
    - destruct (has_getitem _ _ Ht) as [t ->]. eexists. reflexivity. }
  - unfold loop_body. by rewrite Hf.
  - apply filtered_out_false in Hf.
    unfold getitem in Hname. destruct (attrib child !! "name") as [n|] eqn:En; [|done].
    rewrite (loop_body_retained _ _ _ _ _ _ Hf
               (intrinsic_name_texts COLORS child n texts En Htexts)).
    cbn zeta. destruct (_ && _); [done|].
    by rewrite (for_print_instruction COLORS _ lines _ Hlines).
Qed.

Lemma for_ok {A} (l : list A) (body : A → M unit) :
  (∀ x, x ∈ l → ∀ w, (body x w).2 = Ok tt) →
  ∀ w, (for_ l body w).2 = Ok tt.
Proof.
  induction l as [|x l IH]; intros Hb w; [done|].
  cbn [for_]. rewrite bind_run.
  pose proof (Hb x (list_elem_of_here x l) w) as Hx.
  destruct (body x w) as [w1 [[]|e]]; [|done].
  apply IH. intros y Hy. apply Hb. by apply list_elem_of_further.
Qed.

(** C2, as the code has it: when the document parses and every entry has
    its [name] (and its [tech] when a tag is given), every parameter its
    [type] and every instruction its [name], the script runs to its end and
    the exit status is 0. *)
Theorem formatting_succeeds
    (SKIPZERO COLORS : bool) (parse : string → option Element)
    (argv : list string) (root : Element) :
  2 ≤ length argv →
  parse (nth 1 argv "") = Some root →
  forallb (required_attributes (tech_arg argv)) (children root) = true →
  (main SKIPZERO COLORS parse argv initial).2 = Ok tt
  ∧ exit_status (main SKIPZERO COLORS parse argv initial).2 = 0.
Proof.
  intros Hlen Hparse Hreq.
  assert ((main SKIPZERO COLORS parse argv initial).2 = Ok tt) as H;
    [|by rewrite H].
  unfold main. apply Nat.leb_le in Hlen. rewrite Hlen.
  rewrite !bind_run. cbn [mret M_ret]. unfold xml_parse. rewrite Hparse.
  unfold main_loop. apply for_ok. intros child Hc w.
  apply loop_body_ok.
  rewrite forallb_forall in Hreq. by apply Hreq, list_elem_of_In.
Qed.

(** ** Order *)

(** An instruction loop that runs to its end has printed the line of every
    instruction, in the order of the list. *)
Lemma for_print_instruction_inv (COLORS : bool) (instrs : list Element) (w w' : world) :
  for_ instrs (print_instruction COLORS) w = (w', Ok tt) →
  ∃ lines, Forall2 (λ i l, instruction_text COLORS i = Ok l) instrs lines
           ∧ w' = write (join (map (λ l, l +:+ newline) lines)) w.
Proof.
  revert w. induction instrs as [|i instrs IH]; intros w H.
  - exists []. split; [constructor|]. cbn in H. injection H as <-.
    by rewrite write_empty.
  - cbn [for_] in H. rewrite bind_run in H. unfold print_instruction at 1 in H.
    destruct (instruction_text COLORS i) as [l|e] eqn:Hi; [|done].
    rewrite bind_lift_ok in H. unfold print in H.
    destruct (IH _ H) as (lines & Hl & ->).
    exists (l :: lines). split; [by constructor|].
    by rewrite write_write.
Qed.

(** A signature that can be built is made of the texts of the parameters,
    in the order of the list. *)
Lemma intrinsic_name_inv (COLORS : bool) (child : Element) (sig : string) :
  intrinsic_name COLORS child = Ok sig →
  ∃ name texts,
    attrib child !! "name" = Some name
    ∧ Forall2 (λ a t, parameter_text COLORS a = Ok t) (findall child "parameter") texts
    ∧ sig = slice_to_minus2 (name +:+ "(" +:+ join texts) +:+ ")".
Proof.
  unfold intrinsic_name, getitem.
  destruct (attrib child !! "name") as [name|]; [|done]. cbn.
  destruct (for_acc _ _ _) as [s|e] eqn:Hf; [|done]. cbn. intros [= <-].
  apply for_acc_parameters_inv in Hf as (texts & Ht & ->).
  exists name, texts. by rewrite app_assoc_s.
Qed.

(** C6: a run of the main loop that reaches its end has written the blocks
    of the entries one after the other in document order; a signature holds
    the texts of the parameters in document order; the block of an entry
    holds the lines of its instructions in document order; and [findall]
    keeps the order of the children. *)
Theorem order_preserved
    (SKIPZERO COLORS : bool) (tech : string) (root child : Element)
    (sig : string) (w w' : world) :
  (main_loop SKIPZERO COLORS tech root w = (w', Ok tt) →
   w' = write (join (map (λ c, output (loop_body SKIPZERO COLORS tech c))
                       (children root))) w)
  ∧ (intrinsic_name COLORS child = Ok sig →
     ∃ name texts,
       attrib child !! "name" = Some name
       ∧ Forall2 (λ a t, parameter_text COLORS a = Ok t)
           (findall child "parameter") texts
       ∧ sig = slice_to_minus2 (name +:+ "(" +:+ join texts) +:+ ")")
  ∧ (retained tech child → intrinsic_name COLORS child = Ok sig →
     not_skipped SKIPZERO child →
     loop_body SKIPZERO COLORS tech child w = (w', Ok tt) →
     ∃ lines,
       Forall2 (λ i l, instruction_text COLORS i = Ok l)
         (findall child "instruction") lines
       ∧ w' = write (CBLUE COLORS +:+ sig +:+ CEND COLORS
                     +:+ (if length lines =? 1 then ": " else newline)
                     +:+ join (map (λ l, l +:+ newline) lines)) w)
  ∧ (∀ t, findall child t `sublist_of` children child).
Proof.
  repeat split.
  - unfold main_loop. intros H.
    pose proof (framed_for (children root) _ (framed_loop_body SKIPZERO COLORS tech)) as Hfr.
    rewrite (framed_run _ w Hfr) in H. injection H as <- Hok.
    by destruct (for_output _ _ (framed_loop_body SKIPZERO COLORS tech) Hok) as [-> _].
  - apply intrinsic_name_inv.
  - intros Hr Hs Hn H.
    rewrite (loop_body_retained _ _ _ _ _ _ Hr Hs) in H. cbn zeta in H.
    assert ((length (findall child "instruction") =? 0) && SKIPZERO = false) as Hz.
    { destruct Hn as [->|Hn]; [apply andb_false_r|].
      destruct (findall child "instruction"); done. }
    rewrite Hz in H.
    apply for_print_instruction_inv in H as (lines & Hl & ->).
    exists lines. split; [done|].
    rewrite write_write, (Forall2_length _ _ _ Hl).
    by rewrite !app_assoc_s.
  - intros t. apply sublist_filter.
Qed.

(** ** The result of a run *)

Lemma for_app {A} (l1 l2 : list A) (body : A → M unit) (w : world) :
  for_ (l1 ++ l2) body w = (for_ l1 body ;; for_ l2 body) w.
Proof.
  revert w. induction l1 as [|x l1 IH]; intros w; [done|].
  cbn [app for_]. rewrite !bind_run.
  destruct (body x w) as [w1 [[]|e]]; [|done].
  by rewrite IH, bind_run.
Qed.

Lemma for_result {A} (l : list A) (body : A → M unit) (f : A → result unit) :
  (∀ x w, (body x w).2 = f x) →
  ∀ w, (for_ l body w).2 = first_error f l.
Proof.
  intros Hb. induction l as [|x l IH]; intros w; [done|].
  cbn [for_ first_error]. rewrite bind_run.
  pose proof (Hb x w) as Hx.
  destruct (body x w) as [w1 [[]|e]]; cbn [snd] in Hx; rewrite <- Hx; [|done].
  apply IH.
Qed.

Lemma first_error_ok {A} (f : A → result unit) (g : A → bool) (l : list A) :
  (∀ x, f x = Ok tt ↔ g x = true) →
  first_error f l = Ok tt ↔ forallb g l = true.
Proof.
  intros Hfg. induction l as [|x l IH]; [done|].
  cbn [first_error forallb]. rewrite andb_true_iff, <- IH, <- Hfg.
  destruct (f x) as [[]|e]; cbn; [|split; [done | by intros [? _]]].
  split; [done | by intros [_ ?]].
Qed.

Lemma first_error_raised {A} (f : A → result unit) (l : list A) (e : exn) :
  first_error f l = Raised e → ∃ x, x ∈ l ∧ f x = Raised e.
Proof.
  induction l as [|x l IH]; [done|].
  cbn [first_error]. destruct (f x) as [[]|e'] eqn:Hx; cbn.
  - intros H. destruct (IH H) as (y & Hy & Hfy).
    exists y. split; [by apply list_elem_of_further | done].
  - intros [= ->]. exists x. split; [apply list_elem_of_here | done].
Qed.

Lemma require_ok (k : string) (l : list Element) :
  require k l = Ok tt ↔ forallb (has k) l = true.
Proof.
  apply first_error_ok. intros x. unfold has, getitem.
  by destruct (attrib x !! k).
Qed.

Lemma require_raised (k : string) (l : list Element) (e : exn) :
  require k l = Raised e → e = KeyError k.
Proof.
  intros H. apply first_error_raised in H as (x & _ & Hx).
  unfold getitem in Hx. destruct (attrib x !! k); [done|].
  cbn in Hx. congruence.
Qed.

Lemma for_acc_parameters_result (COLORS : bool) (args : list Element) (acc : string) :
  (for_acc args acc
     (λ acc arg, text ← parameter_text COLORS arg; mret (acc +:+ text)) ;; Ok tt)
  = require "type" args.
Proof.
  revert acc. induction args as [|a args IH]; intros acc; [done|].
  cbn [for_acc]. unfold require. cbn [first_error]. fold (require "type" args).
  unfold parameter_text, getitem.
  destruct (attrib a !! "type") as [typ|]; [|done]. cbn. apply IH.
Qed.

Lemma intrinsic_name_result (COLORS : bool) (child : Element) :
  (intrinsic_name COLORS child ;; Ok tt)
  = (getitem (attrib child) "name" ;; require "type" (findall child "parameter")).
Proof.
  unfold intrinsic_name.
  destruct (getitem (attrib child) "name") as [name|e]; [|done]. cbn.
  rewrite <- (for_acc_parameters_result COLORS _ (name +:+ "(")).
  by destruct (for_acc _ _ _).
Qed.

Lemma print_instruction_result (COLORS : bool) (instr : Element) (w : world) :
  (print_instruction COLORS instr w).2 = (getitem (attrib instr) "name" ;; Ok tt).
Proof.
  unfold print_instruction, instruction_text.
  by destruct (getitem (attrib instr) "name").
Qed.

(** The result of the loop body is the result of its attribute reads: it
    depends neither on the switches nor on the state of the process. *)
Lemma loop_body_result (SKIPZERO COLORS : bool) (tech : string) (child : Element) (w : world) :
  (loop_body SKIPZERO COLORS tech child w).2 = entry_outcome tech child.
Proof.
  unfold loop_body, entry_outcome.
  destruct (filtered_out tech child) as [[|]|e]; [done| |done].
  rewrite bind_lift_ok. cbn.
  pose proof (intrinsic_name_result COLORS child) as Hs.
  destruct (intrinsic_name COLORS child) as [sig|e]; cbn in Hs.
  - rewrite bind_lift_ok.
    destruct (getitem (attrib child) "name") as [name|e]; [|done].
    cbn in Hs. cbn. rewrite <- Hs. cbn.
    destruct (findall child "instruction") as [|i instrs] eqn:Hi.
    + by destruct SKIPZERO.
    + cbn [length Nat.eqb andb]. rewrite bind_run.
      destruct (length instrs =? 0); unfold print;
        apply (for_result _ _ _ (print_instruction_result COLORS)).
  - rewrite bind_lift_raised.
    destruct (getitem (attrib child) "name") as [name|e']; [|done].
    cbn in Hs. cbn. by rewrite <- Hs.
Qed.

Lemma main_loop_result (SKIPZERO COLORS : bool) (tech : string) (root : Element) (w : world) :
  (main_loop SKIPZERO COLORS tech root w).2
  = first_error (entry_outcome tech) (children root).
Proof. apply for_result. intros x w'. apply loop_body_result. Qed.

Lemma getitem_lookup (d : gmap string string) (k : string) :
  getitem d k = match d !! k with Some v => Ok v | None => Raised (KeyError k) end.
Proof. reflexivity. Qed.

Lemma block_attributes_ok (child : Element) :
  (getitem (attrib child) "name" ;;
   require "type" (findall child "parameter") ;;
   require "name" (findall child "instruction")) = Ok tt
  ↔ block_attributes child = true.
Proof.
  unfold block_attributes. rewrite !andb_true_iff, <- !require_ok.
  unfold has, getitem. destruct (attrib child !! "name") as [name|]; cbn.
  - destruct (require "type" _) as [[]|e]; cbn.
    + split; [done | by intros [_ ?]].
    + split; [done | by intros [[_ ?] _]].
  - split; [done | by intros [[? _] _]].
Qed.

Lemma entry_outcome_ok (tech : string) (child : Element) :
  entry_outcome tech child = Ok tt ↔ needed_attributes tech child = true.
Proof.
  unfold entry_outcome, needed_attributes, filtered_out.
  destruct (strlen tech =? 0); cbn [negb].
  - apply block_attributes_ok.
  - rewrite (getitem_lookup _ "tech").
    destruct (attrib child !! "tech") as [t|]; [|by split].
    cbn. destruct (streqb t tech); cbn; [apply block_attributes_ok | by split].
Qed.

Lemma entry_outcome_raised (tech : string) (child : Element) (e : exn) :
  entry_outcome tech child = Raised e →
  e = KeyError "name" ∨ e = KeyError "type" ∨ (e = KeyError "tech" ∧ tech ≠ "").
Proof.
  assert ((getitem (attrib child) "name" ;;
           require "type" (findall child "parameter") ;;
           require "name" (findall child "instruction")) = Raised e →
          e = KeyError "name" ∨ e = KeyError "type") as Hblock.
  { unfold getitem. destruct (attrib child !! "name"); cbn; [|left; congruence].
    destruct (require "type" _) as [[]|e'] eqn:Hp; cbn.
    - intros ->%require_raised. by left.
    - intros [= <-]. apply require_raised in Hp. by right. }
  unfold entry_outcome, filtered_out.
  destruct (strlen tech =? 0) eqn:Ht; cbn [negb].
  - intros H. destruct (Hblock H); auto.
  - assert (tech ≠ "") as Hne by (intros ->; by cbn in Ht).
    rewrite (getitem_lookup _ "tech").
    destruct (attrib child !! "tech") as [t|]; cbn.
    + destruct (streqb t tech); cbn; [|done].
      intros H. destruct (Hblock H); auto.
    + intros [= <-]. auto.
Qed.

Lemma main_with_path (SKIPZERO COLORS : bool) (parse : string → option Element)
    (argv : list string) (w : world) :
  2 ≤ length argv →
  main SKIPZERO COLORS parse argv w
  = (xml_parse parse (nth 1 argv "") ≫= main_loop SKIPZERO COLORS (tech_arg argv)) w.
Proof.
  intros H. apply Nat.leb_le in H. unfold main. rewrite !bind_run, H. done.
Qed.

Lemma main_without_path (SKIPZERO COLORS : bool) (parse : string → option Element)
    (argv : list string) (w : world) :
  length argv < 2 →
  main SKIPZERO COLORS parse argv w
  = (write ("Not enough arguments" +:+ newline) w, Raised (SystemExit 1)).
Proof.
  intros H. unfold main.
  destruct (2 <=? length argv) eqn:E; [apply Nat.leb_le in E; lia|].
  done.
Qed.

(** Whether the script fails, and with which exception, depends neither on
    [SKIPZERO] nor on [COLORS]: the switches change what is printed, never
    the result of the run. *)
Theorem result_independent_of_switches
    (S1 C1 S2 C2 : bool) (parse : string → option Element)
    (argv : list string) (w1 w2 : world) :
  (main S1 C1 parse argv w1).2 = (main S2 C2 parse argv w2).2
  ∧ exit_status (main S1 C1 parse argv w1).2
    = exit_status (main S2 C2 parse argv w2).2.
Proof.
  assert ((main S1 C1 parse argv w1).2 = (main S2 C2 parse argv w2).2) as H;
    [|by rewrite H].
  destruct (decide (2 ≤ length argv)) as [Hl|Hl].
  - rewrite !main_with_path, !bind_run by done. unfold xml_parse.
    destruct (parse (nth 1 argv "")) as [root|]; [|done].
    by rewrite !main_loop_result.
  - by rewrite !main_without_path by lia.
Qed.

(** A run on a document that parses succeeds exactly when every entry has
    the attributes the run reads with [d[k]]: [tech] when a tag is given
    and, for the entries of the requested technology, [name], the [type] of
    every parameter and the [name] of every instruction. *)
Theorem run_succeeds_iff
    (SKIPZERO COLORS : bool) (parse : string → option Element)
    (argv : list string) (root : Element) (w : world) :
  2 ≤ length argv →
  parse (nth 1 argv "") = Some root →
  (main SKIPZERO COLORS parse argv w).2 = Ok tt
  ↔ forallb (needed_attributes (tech_arg argv)) (children root) = true.
Proof.
  intros Hl Hp. rewrite main_with_path, bind_run by done.
  unfold xml_parse. rewrite Hp, main_loop_result.
  apply first_error_ok, entry_outcome_ok.
Qed.

(** The only ways a run can fail: [SystemExit(1)] when the path is missing,
    the error of [xml.parse] before anything is written, and a [KeyError]
    for [name], [type] or, only when a tag was given, [tech]. *)
Theorem run_errors
    (SKIPZERO COLORS : bool) (parse : string → option Element)
    (argv : list string) (w : world) (e : exn) :
  (main SKIPZERO COLORS parse argv w).2 = Raised e →
  (e = SystemExit 1 ∧ length argv < 2)
  ∨ (e = DocumentError ∧ 2 ≤ length argv ∧ parse (nth 1 argv "") = None
     ∧ stdout (main SKIPZERO COLORS parse argv w).1 = stdout w)
  ∨ (2 ≤ length argv ∧ is_Some (parse (nth 1 argv ""))
     ∧ (e = KeyError "name" ∨ e = KeyError "type"
        ∨ (e = KeyError "tech" ∧ tech_arg argv ≠ ""))).
Proof.
  destruct (decide (2 ≤ length argv)) as [Hl|Hl].
  - rewrite main_with_path, bind_run by done. unfold xml_parse.
    destruct (parse (nth 1 argv "")) as [root|] eqn:Hp.
    + rewrite main_loop_result. intros H.
      apply first_error_raised in H as (c & _ & Hc).
      apply entry_outcome_raised in Hc. right. right. eauto.
    + intros [= <-]. right. left. done.
  - rewrite main_without_path by lia. intros [= <-]. left. split; [done | lia].
Qed.

(** A run with a path hands exactly that path to [xml.parse], once, and only
    appends to the standard output. *)
Theorem main_reads_one_document
    (SKIPZERO COLORS : bool) (parse : string → option Element)
    (argv : list string) (w : world) :
  2 ≤ length argv →
  opened (main SKIPZERO COLORS parse argv w).1 = opened w ++ [nth 1 argv ""]
  ∧ ∃ out, stdout (main SKIPZERO COLORS parse argv w).1 = stdout w +:+ out.
Proof.
  intros Hl. rewrite main_with_path, bind_run by done. unfold xml_parse.
  destruct (parse (nth 1 argv "")) as [root|].
  - unfold main_loop.
    rewrite (framed_run _ _ (framed_for _ _ (framed_loop_body SKIPZERO COLORS _))).
    split; [done|]. eexists. reflexivity.
  - split; [done|]. exists "". cbn. by rewrite app_empty_r.
Qed.

(** ** Signatures with and without parameters *)

Lemma join_separated (ds : list string) :
  ds ≠ [] →
  join (map (λ d, d +:+ ", ") ds) = Stdlib.Strings.String.concat ", " ds +:+ ", ".
Proof.
  induction ds as [|d ds IH]; [done|]. intros _.
  destruct ds as [|d' ds].
  - cbn. by rewrite app_empty_r.
  - cbn [map join Stdlib.Strings.String.concat] in *.
    rewrite IH by done. by rewrite !app_assoc_s.
Qed.

Lemma substring_app_le (n : nat) (a b : string) :
  n ≤ strlen a → substring 0 n (a +:+ b) = substring 0 n a.
Proof.
  revert n. induction a as [|x a IH]; intros n Hn.
  - cbn in Hn. assert (n = 0) as -> by lia. by destruct b.
  - destruct n as [|n]; [done|].
    rewrite app_cons_s. cbn [substring]. rewrite IH; [done|]. cbn in Hn. lia.
Qed.

(** With at least one parameter, the signature is the name, an opening
    parenthesis, the parameters (colour, type, colour, space, [varname] or
    backspace) separated by [", "], and a closing parenthesis: the slice
    removes exactly the last separator. *)
Theorem signature_with_parameters
    (COLORS : bool) (child : Element) (name : string) (ds : list string) :
  attrib child !! "name" = Some name →
  findall child "parameter" ≠ [] →
  Forall2 (λ a d, ∃ typ, attrib a !! "type" = Some typ
                         ∧ d = parameter_display COLORS typ a)
    (findall child "parameter") ds →
  intrinsic_name COLORS child
  = Ok (name +:+ "(" +:+ Stdlib.Strings.String.concat ", " ds +:+ ")").
Proof.
  intros Hn Hne Hd.
  assert (Forall2 (λ a t, parameter_text COLORS a = Ok t)
            (findall child "parameter") (map (λ d, d +:+ ", ") ds)) as Ht.
  { apply Forall2_fmap_r. eapply Forall2_impl; [exact Hd|].
    intros a d (typ & Htyp & ->). unfold parameter_text, getitem. rewrite Htyp.
    cbn. unfold parameter_display. by rewrite !app_assoc_s. }
  rewrite (intrinsic_name_texts COLORS child name _ Hn Ht).
  assert (ds ≠ []) as Hds.
  { intros ->. by inversion Hd. }
  rewrite (join_separated ds Hds).
  rewrite <- !app_assoc_s, slice_to_minus2_suffix. by rewrite !app_assoc_s.
Qed.

Lemma signature_with_parameters_witness :
  intrinsic_name false add_epi32 = Ok "_mm_add_epi32(__m128i a, __m128i b)".
Proof.
  assert (Forall2 (λ a d, ∃ typ, attrib a !! "type" = Some typ
                                 ∧ d = parameter_display false typ a)
            (findall add_epi32 "parameter") ["__m128i a"; "__m128i b"]) as Hd.
  { repeat constructor; exists "__m128i"; split; reflexivity. }
  assert (findall add_epi32 "parameter" ≠ []) as Hne by (vm_compute; done).
  exact (signature_with_parameters false add_epi32 "_mm_add_epi32"
           ["__m128i a"; "__m128i b"] eq_refl Hne Hd).
Defined.

(** Without parameters, the signature is the name without its last
    character, followed by a closing parenthesis; for an empty name it is
    the closing parenthesis alone. *)
Theorem signature_without_parameters
    (COLORS : bool) (child : Element) (name : string) :
  attrib child !! "name" = Some name →
  findall child "parameter" = [] →
  intrinsic_name COLORS child
  = Ok (substring 0 (strlen name - 1) name +:+ ")").
Proof.
  intros Hn Hp.
  rewrite (intrinsic_name_texts COLORS child name [] Hn) by (rewrite Hp; constructor).
  cbn [join]. rewrite app_empty_r. unfold slice_to_minus2.
  rewrite strlen_app. cbn [strlen].
  replace (strlen name + 1 - 2) with (strlen name - 1) by lia.
  rewrite substring_app_le by lia. done.
Qed.

Lemma signature_without_parameters_witness :
  intrinsic_name true setzero_si128 = Ok "_mm_setzero_si12)"
  ∧ intrinsic_name true (mkElement "intrinsic" (attrs [("name", "")]) []) = Ok ")".
Proof.
  split.
  - exact (signature_without_parameters true setzero_si128 "_mm_setzero_si128"
             eq_refl eq_refl).
  - exact (signature_without_parameters true
             (mkElement "intrinsic" (attrs [("name", "")]) []) "" eq_refl eq_refl).
Defined.

(** ** What the loop body looks at *)

Lemma findall_relevant (t : string) (a : gmap string string) (cs : list Element)
    (t' : string) (k : string) :
  k = "parameter" ∨ k = "instruction" →
  findall (mkElement t' a (filter relevant cs)) k = findall (mkElement t a cs) k.
Proof.
  intros Hk. unfold findall. cbn [children].
  apply list_filter_filter_l. intros c Hc. unfold relevant. rewrite Hc.
  destruct Hk; [by left | by right].
Qed.

(** The loop body looks at the attributes of the entry and at its
    [parameter] and [instruction] children only: the tag of the entry and
    its other children ([description], [type], ...) change nothing. *)
Theorem other_children_are_ignored
    (SKIPZERO COLORS : bool) (tech : string) (t t' : string)
    (a : gmap string string) (cs : list Element) (w : world) :
  loop_body SKIPZERO COLORS tech (mkElement t' a (filter relevant cs)) w
  = loop_body SKIPZERO COLORS tech (mkElement t a cs) w.
Proof.
  unfold loop_body, intrinsic_name, filtered_out.
  rewrite !(findall_relevant t a cs t') by auto. done.
Qed.

(** ** Filtering and skipping as operations on the document *)

Lemma loop_body_same_filter (SKIPZERO COLORS : bool) (tech1 tech2 : string)
    (child : Element) (w : world) :
  filtered_out tech1 child = filtered_out tech2 child →
  loop_body SKIPZERO COLORS tech1 child w = loop_body SKIPZERO COLORS tech2 child w.
Proof. intros H. unfold loop_body. by rewrite H. Qed.

Lemma filtered_out_true (tech t : string) (child : Element) :
  tech ≠ "" → attrib child !! "tech" = Some t → t ≠ tech →
  filtered_out tech child = Ok true.
Proof.
  intros Hne Ht Hd. unfold filtered_out, getitem.
  destruct (strlen tech =? 0) eqn:E; [by apply strlen_zero in E|].
  rewrite Ht. cbn. by destruct (String.eqb_spec t tech).
Qed.

Lemma for_cons {A} (x : A) (l : list A) (body : A → M unit) (w : world) :
  for_ (x :: l) body w =
  match body x w with
  | (w', Ok _) => for_ l body w'
  | (w', Raised e) => (w', Raised e)
  end.
Proof. reflexivity. Qed.

(** Running with a tag is running without a tag on the document reduced
    to the entries of that technology, when every entry has a [tech]
    attribute. *)
Theorem tag_filters_document
    (SKIPZERO COLORS : bool) (tech : string) (t : string)
    (a : gmap string string) (cs : list Element) (w : world) :
  tech ≠ "" →
  forallb (has "tech") cs = true →
  main_loop SKIPZERO COLORS tech (mkElement t a cs) w
  = main_loop SKIPZERO COLORS ""
      (mkElement t a (filter (λ c, attrib c !! "tech" = Some tech) cs)) w.
Proof.
  intros Hne. unfold main_loop. cbn [children].
  revert w. induction cs as [|c cs IH]; intros w Hall; [done|].
  cbn [forallb] in Hall. apply andb_true_iff in Hall as [Hc Hall].
  unfold has in Hc. destruct (attrib c !! "tech") as [tc|] eqn:Htc; [|done].
  rewrite for_cons. destruct (decide (tc = tech)) as [->|Hd].
  - rewrite filter_cons_True by done. rewrite for_cons.
    rewrite (loop_body_same_filter _ _ tech "" c w).
    + destruct (loop_body _ _ "" c w) as [w1 [[]|e]]; [|done]. by apply IH.
    + transitivity (Ok false : result bool); [|done].
      apply filtered_out_false. by right.
  - rewrite filter_cons_False by congruence.
    unfold loop_body at 1. rewrite (filtered_out_true tech tc c Hne Htc Hd).
    rewrite bind_lift_ok. cbn [mret M_ret]. by apply IH.
Qed.

Lemma loop_body_skip_zero (COLORS : bool) (tech : string) (child : Element) (w : world) :
  findall child "instruction" = [] →
  (loop_body true COLORS tech child w).1 = w.
Proof.
  intros Hz. unfold loop_body. rewrite Hz.
  destruct (filtered_out tech child) as [[|]|e]; [done| |done].
  rewrite bind_lift_ok. by destruct (intrinsic_name COLORS child).
Qed.

Lemma loop_body_with_instructions (S1 S2 COLORS : bool) (tech : string)
    (child : Element) (w : world) :
  findall child "instruction" ≠ [] →
  loop_body S1 COLORS tech child w = loop_body S2 COLORS tech child w.
Proof.
  intros Hn. unfold loop_body.
  destruct (findall child "instruction"); done.
Qed.

(** A run with the skip rule that reaches its end prints what a run
    without the skip rule prints on the document reduced to the entries
    that have an instruction. *)
Theorem skip_rule_removes_entries
    (COLORS : bool) (tech : string) (t : string)
    (a : gmap string string) (cs : list Element) (w : world) :
  (main_loop true COLORS tech (mkElement t a cs) w).2 = Ok tt →
  main_loop true COLORS tech (mkElement t a cs) w
  = main_loop false COLORS tech
      (mkElement t a (filter (λ c, findall c "instruction" ≠ []) cs)) w.
Proof.
  unfold main_loop. cbn [children].
  revert w. induction cs as [|c cs IH]; intros w Hok; [done|].
  rewrite for_cons in Hok |- *.
  destruct (decide (findall c "instruction" = [])) as [Hz|Hn].
  - rewrite filter_cons_False by (intros H; by apply H).
    pose proof (loop_body_skip_zero COLORS tech c w Hz) as Hw.
    destruct (loop_body true COLORS tech c w) as [w1 [[]|e]]; [|done].
    cbn in Hw. subst w1. by apply IH.
  - rewrite filter_cons_True by done. rewrite for_cons.
    rewrite <- (loop_body_with_instructions true false COLORS tech c w Hn).
    destruct (loop_body true COLORS tech c w) as [w1 [[]|e]]; [|done].
    by apply IH.
Qed.

(** ** Runs that fail *)

Lemma for_all_ok {A} (l : list A) (body : A → M unit) (w : world) :
  (∀ x, framed (body x)) →
  Forall (λ x, outcome (body x) = Ok tt) l →
  for_ l body w = (write (join (map (λ x, output (body x)) l)) w, Ok tt).
Proof.
  intros Hb Hall. revert w. induction Hall as [|x l Hx _ IH]; intros w.
  - cbn. by rewrite write_empty.
  - rewrite for_cons, (framed_run _ w (Hb x)), Hx, IH, write_write. done.
Qed.

(** When an entry raises an exception, the blocks of the entries before it
    and what the entry itself had printed stay on the standard output, and
    the entries after it are not looked at. *)
Theorem failure_keeps_earlier_output
    (SKIPZERO COLORS : bool) (tech : string) (t : string)
    (a : gmap string string) (before after : list Element) (child : Element)
    (e : exn) (w : world) :
  Forall (λ c, outcome (loop_body SKIPZERO COLORS tech c) = Ok tt) before →
  outcome (loop_body SKIPZERO COLORS tech child) = Raised e →
  main_loop SKIPZERO COLORS tech (mkElement t a (before ++ child :: after)) w
  = (write (join (map (λ c, output (loop_body SKIPZERO COLORS tech c)) before)
            +:+ output (loop_body SKIPZERO COLORS tech child)) w,
     Raised e).
Proof.
  intros Hb Hc. unfold main_loop. cbn [children].
  rewrite for_app, bind_run.
  rewrite (for_all_ok _ _ w (framed_loop_body SKIPZERO COLORS tech) Hb).
  rewrite for_cons, (framed_run _ _ (framed_loop_body SKIPZERO COLORS tech child)).
  by rewrite Hc, write_write.
Qed.

Lemma for_print_instruction_raised (COLORS : bool) (done_ rest : list Element)
    (bad : Element) (lines : list string) (w : world) :
  Forall2 (λ i l, instruction_text COLORS i = Ok l) done_ lines →
  attrib bad !! "name" = None →
  for_ (done_ ++ bad :: rest) (print_instruction COLORS) w
  = (write (join (map (λ l, l +:+ newline) lines)) w, Raised (KeyError "name")).
Proof.
  intros Hl Hb. rewrite for_app, bind_run.
  rewrite (for_print_instruction COLORS _ lines _ Hl), for_cons.
  unfold print_instruction, instruction_text, getitem. by rewrite Hb.
Qed.

(** An instruction without a [name] stops the run in the middle of a block:
    the signature and the lines of the instructions before it are printed,
    then the [KeyError] is raised. *)
Theorem instruction_without_name
    (SKIPZERO COLORS : bool) (tech : string) (child : Element) (sig : string)
    (done_ rest : list Element) (bad : Element) (lines : list string) (w : world) :
  retained tech child →
  intrinsic_name COLORS child = Ok sig →
  findall child "instruction" = done_ ++ bad :: rest →
  Forall2 (λ i l, instruction_text COLORS i = Ok l) done_ lines →
  attrib bad !! "name" = None →
  loop_body SKIPZERO COLORS tech child w
  = (write (CBLUE COLORS +:+ sig +:+ CEND COLORS
            +:+ (if length (done_ ++ bad :: rest) =? 1 then ": " else newline)
            +:+ join (map (λ l, l +:+ newline) lines)) w,
     Raised (KeyError "name")).
Proof.
  intros Hr Hs Hi Hl Hb.
  rewrite (loop_body_retained SKIPZERO COLORS tech child sig w Hr Hs). cbn zeta.
  rewrite Hi.
  assert ((length (done_ ++ bad :: rest) =? 0) = false) as ->.
  { rewrite length_app. cbn. apply Nat.eqb_neq. lia. }
  cbn [andb].
  rewrite (for_print_instruction_raised COLORS _ _ _ lines _ Hl Hb), write_write.
  by rewrite !app_assoc_s.
Qed.

(** ** Attributes that are not displayed *)

(** An attribute of an entry other than [name] and [tech] (such as
    [rettype]) changes nothing, and without a tag the [tech] attribute
    changes nothing either: it is used for filtering only. *)
Theorem other_attributes_are_ignored
    (SKIPZERO COLORS : bool) (tech : string) (t : string)
    (a : gmap string string) (cs : list Element) (k x : string) (w : world) :
  (k ≠ "name" → k ≠ "tech" →
   loop_body SKIPZERO COLORS tech (mkElement t (<[k:=x]> a) cs) w
   = loop_body SKIPZERO COLORS tech (mkElement t a cs) w)
  ∧ loop_body SKIPZERO COLORS "" (mkElement t (<["tech":=x]> a) cs) w
    = loop_body SKIPZERO COLORS "" (mkElement t a cs) w.
Proof.
  split.
  - intros Hn Ht.
    unfold loop_body, intrinsic_name, filtered_out, findall, getitem.
    cbn [attrib children]. by rewrite !lookup_insert_ne.
  - unfold loop_body, intrinsic_name, filtered_out, findall, getitem.
    cbn [attrib children strlen Nat.eqb negb]. by rewrite lookup_insert_ne.
Qed.

End Lowercase.

(** ** Runs of the script

    The runs below are on documents of ASCII characters, for which
    [str.lower()] is the ASCII case map. *)

(** One entry of the requested technology with one instruction. *)
Example run_matching_tag :
  main ascii_lowercase true false (λ _, Some doc1)
    ["filter-intel-xml.py"; "data.xml"; "SSE2"] initial
  = (World ("_mm_add_epi32(__m128i a, __m128i b): paddd xmm, xmm" +:+ newline)
       ["data.xml"], Ok tt).
Proof. vm_compute. reflexivity. Qed.

(** The same entry with the colours on. *)
Example run_with_colours :
  stdout (main ascii_lowercase true true (λ _, Some doc1)
            ["filter-intel-xml.py"; "data.xml"] initial).1
  = String ESC "[94m_mm_add_epi32(" +:+ String ESC "[36m__m128i"
    +:+ String ESC "[94m a, " +:+ String ESC "[36m__m128i"
    +:+ String ESC "[94m b)" +:+ String ESC "[0m: "
    +:+ String ESC "[92mpaddd" +:+ String ESC "[0m xmm, xmm" +:+ newline.
Proof. vm_compute. reflexivity. Qed.

(** A tag that matches nothing: no output, exit status 0. *)
Example run_other_tag :
  main ascii_lowercase true false (λ _, Some doc1)
    ["filter-intel-xml.py"; "data.xml"; "AVX2"] initial
  = (World "" ["data.xml"], Ok tt).
Proof. vm_compute. reflexivity. Qed.

(** The tag is compared with case. *)
Example run_tag_in_lowercase :
  main ascii_lowercase true false (λ _, Some doc1)
    ["filter-intel-xml.py"; "data.xml"; "sse2"] initial
  = (World "" ["data.xml"], Ok tt).
Proof. vm_compute. reflexivity. Qed.

(** A document that cannot be read: nothing is written. *)
Example run_unreadable_document :
  main ascii_lowercase true false (λ _, None)
    ["filter-intel-xml.py"; "data.xml"] initial
  = (World "" ["data.xml"], Raised DocumentError).
Proof. vm_compute. reflexivity. Qed.

(** C1: an entry without parameter children does not get the signature
    [name()]: the slice that is meant to remove the last separator removes
    the opening parenthesis and the last character of the name.  The entry
    [_mm_setzero_si128] is printed as [_mm_setzero_si12)]. *)
Theorem signature_without_parameters_loses_a_character :
  findall setzero_si128 "parameter" = []
  ∧ attrib setzero_si128 !! "name" = Some "_mm_setzero_si128"
  ∧ intrinsic_name false setzero_si128 = Ok "_mm_setzero_si12)"
  ∧ intrinsic_name false setzero_si128 ≠ Ok "_mm_setzero_si128()"
  ∧ main ascii_lowercase true false
      (λ _, Some (mkElement "intrinsics_list" ∅ [setzero_si128]))
      ["filter-intel-xml.py"; "data.xml"] initial
    = (World ("_mm_setzero_si12): pxor xmm, xmm" +:+ newline) ["data.xml"], Ok tt).
Proof. vm_compute. repeat split; done. Qed.

Lemma missing_optional_attribute_renders_backspace_witness :
  parameter_text false unnamed_parameter = Ok ("__m128i " +:+ backspace +:+ ", ")
  ∧ instruction_text ascii_lowercase false formless_instruction
    = Ok ("vzeroall " +:+ backspace).
Proof.
  pose proof (missing_optional_attribute_renders_backspace ascii_lowercase false
                unnamed_parameter formless_instruction "__m128i" "VZEROALL")
    as (Hp & Hi & _).
  split; [apply Hp | apply Hi]; reflexivity.
Defined.

Lemma instruction_line_witness :
  instruction_text ascii_lowercase true
    (mkElement "instruction" (attrs [("name", "PADDD"); ("form", "xmm, xmm")]) [])
  = Ok (String ESC "[92mpaddd" +:+ String ESC "[0m xmm, xmm")
  ∧ instruction_text ascii_lowercase false
      (mkElement "instruction" (attrs [("name", "PADDD"); ("form", "xmm, xmm")]) [])
    = Ok "paddd xmm, xmm".
Proof.
  pose proof (instruction_line ascii_lowercase (λ s _, eq_refl) true
                (mkElement "instruction"
                   (attrs [("name", "PADDD"); ("form", "xmm, xmm")]) [])
                "PADDD" initial eq_refl) as (_ & _ & _ & Ha).
  destruct Ha as [Hc Hp]; [reflexivity|].
  split; [exact Hc | exact Hp].
Defined.

Lemma missing_path_argument_witness :
  main ascii_lowercase true true (λ _, Some doc1) ["filter-intel-xml.py"] initial
  = (World ("Not enough arguments" +:+ newline) [], Raised (SystemExit 1)).
Proof.
  refine (proj1 (missing_path_argument ascii_lowercase true true _ ["filter-intel-xml.py"] _)).
  cbn. lia.
Defined.

Lemma extra_arguments_ignore_tag_witness :
  main ascii_lowercase true false (λ _, Some doc1)
    ["filter-intel-xml.py"; "data.xml"; "AVX2"; "extra"] initial
  = main ascii_lowercase true false (λ _, Some doc1)
      ["filter-intel-xml.py"; "data.xml"] initial.
Proof.
  refine (proj2 (proj2 (extra_arguments_ignore_tag ascii_lowercase true false _
            ["filter-intel-xml.py"; "data.xml"; "AVX2"; "extra"] initial _))).
  cbn. lia.
Defined.

Lemma zero_instruction_entries_witness :
  (loop_body ascii_lowercase true false "SSE2" castps_si128 initial).1 = initial
  ∧ loop_body ascii_lowercase false false "SSE2" castps_si128 initial
    = (World ("_mm_castps_si128(__m128 a)" +:+ newline) [], Ok tt).
Proof.
  pose proof (zero_instruction_entries ascii_lowercase false "SSE2" castps_si128
                "_mm_castps_si128(__m128 a)" initial) as H.
  destruct H as [H1 H2]; [reflexivity|].
  split; [exact H1|].
  apply H2; [right|]; reflexivity.
Defined.

Lemma one_or_many_instructions_witness :
  loop_body ascii_lowercase true false "SSE2" add_epi32 initial
  = (World ("_mm_add_epi32(__m128i a, __m128i b): paddd xmm, xmm" +:+ newline) [],
     Ok tt)
  ∧ loop_body ascii_lowercase true false "" i32gather initial
    = (World ("_mm_i32gather(int i)" +:+ newline
              +:+ "vmovd xmm, r32" +:+ newline
              +:+ "vpgatherdd " +:+ backspace +:+ newline) [], Ok tt).
Proof.
  split.
  - assert (retained "SSE2" add_epi32) as Hr by (right; reflexivity).
    assert (Forall2 (λ i l, instruction_text ascii_lowercase false i = Ok l)
              (findall add_epi32 "instruction") ["paddd xmm, xmm"]) as Hl
      by (repeat constructor).
    exact (proj1 (one_or_many_instructions ascii_lowercase true false "SSE2" add_epi32
                    "_mm_add_epi32(__m128i a, __m128i b)" ["paddd xmm, xmm"]
                    initial Hr eq_refl Hl) "paddd xmm, xmm" eq_refl).
  - assert (retained "" i32gather) as Hr by (left; reflexivity).
    assert (Forall2 (λ i l, instruction_text ascii_lowercase false i = Ok l)
              (findall i32gather "instruction")
              ["vmovd xmm, r32"; "vpgatherdd " +:+ backspace]) as Hl
      by (repeat constructor).
    assert (2 ≤ length (findall i32gather "instruction")) as H2 by (vm_compute; lia).
    exact (proj2 (one_or_many_instructions ascii_lowercase true false "" i32gather
                    "_mm_i32gather(int i)"
                    ["vmovd xmm, r32"; "vpgatherdd " +:+ backspace]
                    initial Hr eq_refl Hl) H2).
Defined.

Lemma entry_appears_iff_witness :
  appears ascii_lowercase true false "SSE2" add_epi32
  ∧ ¬ appears ascii_lowercase true false "AVX2" add_epi32.
Proof.
  pose proof (entry_appears_iff ascii_lowercase true false "SSE2" add_epi32
                "_mm_add_epi32(__m128i a, __m128i b)" eq_refl) as [H1 _].
  pose proof (entry_appears_iff ascii_lowercase true false "AVX2" add_epi32
                "_mm_add_epi32(__m128i a, __m128i b)" eq_refl) as [H2 _].
  split.
  - apply H1; [done|]. split; [reflexivity|]. right. vm_compute. done.
  - intros Ha. apply H2 in Ha as [Ha _]; [|done]. vm_compute in Ha. done.
Defined.

(** The claim of C3 read without the skip rule fails: an entry of the
    requested technology that has no instruction is not printed. *)
Lemma matching_entry_without_instructions_is_dropped :
  attrib castps_si128 !! "tech" = Some "SSE2"
  ∧ ¬ appears ascii_lowercase true true "SSE2" castps_si128
  ∧ main ascii_lowercase true true (λ _, Some (mkElement "intrinsics_list" ∅ [castps_si128]))
      ["filter-intel-xml.py"; "data.xml"; "SSE2"] initial
    = (World "" ["data.xml"], Ok tt).
Proof.
  split; [reflexivity|]. split; [|reflexivity].
  unfold appears. vm_compute. intros H. by apply H.
Qed.

Lemma formatting_succeeds_witness :
  (main ascii_lowercase true true (λ _, Some doc1)
     ["filter-intel-xml.py"; "data.xml"; "SSE2"] initial).2
  = Ok tt.
Proof.
  refine (proj1 (formatting_succeeds ascii_lowercase true true (λ _, Some doc1)
                   ["filter-intel-xml.py"; "data.xml"; "SSE2"] doc1
                   _ eq_refl eq_refl)).
  cbn. lia.
Defined.

(** The claim of C2 fails: a document that parses can still stop the script
    with a [KeyError], when an attribute read with [d[k]] is missing. *)
Lemma formatting_fails_without_required_attribute :
  main ascii_lowercase true false (λ _, Some untagged_doc)
    ["filter-intel-xml.py"; "data.xml"; "SSE2"] initial
  = (World "" ["data.xml"], Raised (KeyError "tech"))
  ∧ main ascii_lowercase true false (λ _, Some untyped_doc)
      ["filter-intel-xml.py"; "data.xml"] initial
    = (World ("_mm_add_epi32(__m128i a, __m128i b): paddd xmm, xmm" +:+ newline)
         ["data.xml"], Raised (KeyError "type")).
Proof. split; vm_compute; reflexivity. Qed.

Lemma order_preserved_witness :
  (main_loop ascii_lowercase true false ""
     (mkElement "intrinsics_list" ∅ [add_epi32; castps_si128; i32gather])
     initial).1
  = write (join [ "_mm_add_epi32(__m128i a, __m128i b): paddd xmm, xmm" +:+ newline;
                  "";
                  "_mm_i32gather(int i)" +:+ newline
                  +:+ "vmovd xmm, r32" +:+ newline
                  +:+ "vpgatherdd " +:+ backspace +:+ newline ]) initial.
Proof.
  refine (proj1 (order_preserved ascii_lowercase true false ""
                   (mkElement "intrinsics_list" ∅ [add_epi32; castps_si128; i32gather])
                   add_epi32 "" initial _) _).
  vm_compute. reflexivity.
Defined.

Lemma run_succeeds_iff_witness :
  (main ascii_lowercase true true (λ _, Some untagged_doc)
     ["filter-intel-xml.py"; "data.xml"] initial).2 = Ok tt
  ∧ (main ascii_lowercase true true (λ _, Some untagged_doc)
       ["filter-intel-xml.py"; "data.xml"; "SSE2"] initial).2 ≠ Ok tt.
Proof.
  split.
  - apply (run_succeeds_iff ascii_lowercase true true (λ _, Some untagged_doc)
             ["filter-intel-xml.py"; "data.xml"] untagged_doc initial);
      [cbn; lia | reflexivity | reflexivity].
  - intros H.
    apply (run_succeeds_iff ascii_lowercase true true (λ _, Some untagged_doc)
             ["filter-intel-xml.py"; "data.xml"; "SSE2"] untagged_doc initial) in H;
      [vm_compute in H; done | cbn; lia | reflexivity].
Defined.

Lemma run_errors_witness :
  is_Some ((λ _ : string, Some untagged_doc) "data.xml")
  ∧ tech_arg ["filter-intel-xml.py"; "data.xml"; "SSE2"] ≠ "".
Proof.
  destruct (run_errors ascii_lowercase true false (λ _, Some untagged_doc)
              ["filter-intel-xml.py"; "data.xml"; "SSE2"] initial
              (KeyError "tech") eq_refl)
    as [[H _]|[(H & _)|(_ & Hp & [H|[H|[_ H]]])]]; try discriminate H.
  split; [exact Hp | exact H].
Defined.

Lemma main_reads_one_document_witness :
  opened (main ascii_lowercase true true (λ _, Some doc1)
            ["filter-intel-xml.py"; "data.xml"; "SSE2"] initial).1
  = ["data.xml"].
Proof.
  refine (proj1 (main_reads_one_document ascii_lowercase true true (λ _, Some doc1)
                   ["filter-intel-xml.py"; "data.xml"; "SSE2"] initial _)).
  cbn. lia.
Defined.

Lemma tag_filters_document_witness :
  main_loop ascii_lowercase true false "AVX2" mixed_doc initial
  = main_loop ascii_lowercase true false "" (mkElement "intrinsics_list" ∅ [i32gather]) initial.
Proof.
  refine (tag_filters_document ascii_lowercase true false "AVX2" "intrinsics_list" ∅
            [add_epi32; castps_si128; i32gather] initial _ eq_refl).
  done.
Defined.

Lemma skip_rule_removes_entries_witness :
  main_loop ascii_lowercase true false "" mixed_doc initial
  = main_loop ascii_lowercase false false ""
      (mkElement "intrinsics_list" ∅ [add_epi32; i32gather]) initial.
Proof.
  exact (skip_rule_removes_entries ascii_lowercase false "" "intrinsics_list" ∅
           [add_epi32; castps_si128; i32gather] initial eq_refl).
Defined.

Lemma failure_keeps_earlier_output_witness :
  main_loop ascii_lowercase true false "" (mkElement "intrinsics_list" ∅
                             [add_epi32; nameless_instruction_entry; i32gather]) initial
  = (World ("_mm_add_epi32(__m128i a, __m128i b): paddd xmm, xmm" +:+ newline
            +:+ "_mm_i32gather(int i)" +:+ newline
            +:+ "vmovd xmm, r32" +:+ newline) [],
     Raised (KeyError "name")).
Proof.
  assert (Forall (λ c, outcome (loop_body ascii_lowercase true false "" c) = Ok tt) [add_epi32])
    as Hb by (repeat constructor).
  exact (failure_keeps_earlier_output ascii_lowercase true false "" "intrinsics_list" ∅
           [add_epi32] [i32gather] nameless_instruction_entry
           (KeyError "name") initial Hb eq_refl).
Defined.

Lemma instruction_without_name_witness :
  loop_body ascii_lowercase true false "" nameless_instruction_entry initial
  = (World ("_mm_i32gather(int i)" +:+ newline +:+ "vmovd xmm, r32" +:+ newline) [],
     Raised (KeyError "name")).
Proof.
  assert (retained "" nameless_instruction_entry) as Hr by (left; reflexivity).
  assert (Forall2 (λ i l, instruction_text ascii_lowercase false i = Ok l)
            [mkElement "instruction" (attrs [("name", "VMOVD"); ("form", "xmm, r32")]) []]
            ["vmovd xmm, r32"]) as Hl by (repeat constructor).
  exact (instruction_without_name ascii_lowercase true false "" nameless_instruction_entry
           "_mm_i32gather(int i)"
           [mkElement "instruction" (attrs [("name", "VMOVD"); ("form", "xmm, r32")]) []]
           [mkElement "instruction" (attrs [("name", "VPGATHERDD")]) []]
           (mkElement "instruction" (attrs [("form", "xmm, vm32x, xmm")]) [])
           ["vmovd xmm, r32"] initial Hr eq_refl eq_refl Hl eq_refl).
Defined.

Lemma other_attributes_are_ignored_witness :
  loop_body ascii_lowercase true false "SSE2"
    (mkElement "intrinsic"
       (<["rettype":="__m128i"]> (attrs [("name", "_mm_add_epi32"); ("tech", "SSE2")]))
       (children add_epi32)) initial
  = loop_body ascii_lowercase true false "SSE2" add_epi32 initial.
Proof.
  apply (other_attributes_are_ignored ascii_lowercase true false "SSE2" "intrinsic"
           (attrs [("name", "_mm_add_epi32"); ("tech", "SSE2")])
           (children add_epi32) "rettype" "__m128i" initial); done.
Defined.

